(** * TestImpact::BuildTarget

    A shallow embedding of
    [Code/Tools/TestImpactFramework/Runtime/Common/Code/Include/Static/BuildTarget/Common/TestImpactBuildTarget.h]:
    the non-owning wrapper over a test target or a production target, its
    accessors, its visitor dispatch, its equality and its hash.

    Pointers are machine addresses (64-bit, [nullptr] is address 0).  Member
    functions are computations in a state monad whose state is the object
    [*this]; a lambda that captures a local by reference is a function on
    that local. *)

From Stdlib Require Import ZArith Bool List Lia.
From ExtLib Require Import Structures.Monad Structures.MonadState.
From ExtLib Require Import Data.Monads.StateMonad.
Import ListNotations.
Import MonadNotation.
Local Open Scope monad_scope.
Local Open Scope Z_scope.

(** ** Pointers and the address space *)

Definition pointer := Z.

Definition nullptr : pointer := 0.

Definition pointer_bits : Z := 64.

(** Number of addresses; also the modulus of [size_t]. *)
Definition address_space : Z := 2 ^ pointer_bits.

(** [reinterpret_cast<size_t>(p)]: the address as an unsigned integer of
    the width of a pointer. *)
Definition reinterpret_cast_size_t (p : pointer) : Z := p mod address_space.

(** ** The two template parameters and the types built from them *)

(** [template<typename ProductionTarget, typename TestTarget>]: two distinct
    class types (instantiating both with one type declares the same
    constructor twice and does not compile). *)
Inductive target_class : Type :=
| TestTarget
| ProductionTarget.

Definition target_class_eqb (c d : target_class) : bool :=
  match c, d with
  | TestTarget, TestTarget => true
  | ProductionTarget, ProductionTarget => true
  | _, _ => false
  end.

(** The fragment of the C++ type language that [decltype(target)] and the
    type traits of lines 54-61 range over. *)
Inductive cpp_type : Type :=
| Class (c : target_class)
| Const (T : cpp_type)
| Pointer (T : cpp_type)
| LvalueRef (T : cpp_type)
| RvalueRef (T : cpp_type).

Fixpoint is_same_v (T U : cpp_type) : bool :=
  match T, U with
  | Class c, Class d => target_class_eqb c d
  | Const T', Const U' => is_same_v T' U'
  | Pointer T', Pointer U' => is_same_v T' U'
  | LvalueRef T', LvalueRef U' => is_same_v T' U'
  | RvalueRef T', RvalueRef U' => is_same_v T' U'
  | _, _ => false
  end.

Definition remove_reference_t (T : cpp_type) : cpp_type :=
  match T with
  | LvalueRef U => U
  | RvalueRef U => U
  | _ => T
  end.

Definition remove_const_t (T : cpp_type) : cpp_type :=
  match T with
  | Const U => U
  | _ => T
  end.

(** [remove_pointer_t] also strips a const-qualified pointer. *)
Definition remove_pointer_t (T : cpp_type) : cpp_type :=
  match T with
  | Pointer U => U
  | Const (Pointer U) => U
  | _ => T
  end.

(** [decay_t] on a type that is neither an array nor a function. *)
Definition decay_t (T : cpp_type) : cpp_type :=
  remove_const_t (remove_reference_t T).

(** ** Layout of the referenced classes *)

(** [Target] is declared in [Target/Common/TestImpactTarget.h] and the two
    concrete classes are template arguments; what the wrapper needs of them
    is where the [Target] base subobject sits inside an object of each
    class, and how large such an object is. *)
Record ClassLayout : Type := mkClassLayout
  { sizeof : target_class -> Z;
    Target_offset : target_class -> Z }.

(** The [Target] base subobject lies inside the object. *)
Definition layout_ok (L : ClassLayout) : bool :=
  forallb (fun c => (0 <=? Target_offset L c) && (Target_offset L c <? sizeof L c))
          [TestTarget; ProductionTarget].

(** An object of class [c] lives at [p]: [p] is not null and the storage
    [p, p + sizeof c) lies in the address space. *)
Definition live (L : ClassLayout) (c : target_class) (p : pointer) : bool :=
  (0 <? p) && (p + sizeof L c <=? address_space).

(** Distinct complete objects occupy disjoint storage. *)
Definition disjoint_storage (L : ClassLayout)
    (c : target_class) (p : pointer) (d : target_class) (q : pointer) : bool :=
  (p + sizeof L c <=? q) || (q + sizeof L d <=? p).

(** Address of the [Target] base subobject of the object of class [c] at [p]. *)
Definition Target_subobject (L : ClassLayout) (c : target_class) (p : pointer) : pointer :=
  p + Target_offset L c.

(** Memory contents, one byte per address. *)
Definition memory := Z -> Z.

(** The [n] bytes at [p] and at [q] are the same. *)
Definition value_identical (mem : memory) (n : Z) (p q : pointer) : bool :=
  forallb (fun i => mem (p + Z.of_nat i) =? mem (q + Z.of_nat i))
          (seq 0 (Z.to_nat n)).

(** ** BuildTargetType (lines 18-23) *)

Module BuildTargetType.
Inductive t : Type :=
| TestTarget
| ProductionTarget.
End BuildTargetType.

(** ** The variant member (line 62) *)

(** [AZStd::variant<const TestTarget*, const ProductionTarget*>]: the active
    alternative and the pointer it holds. *)
Inductive variant : Type :=
| alternative0 (testTarget : pointer)
| alternative1 (productionTarget : pointer).

Definition index (v : variant) : Z :=
  match v with
  | alternative0 _ => 0
  | alternative1 _ => 1
  end.

Definition held_pointer (v : variant) : pointer :=
  match v with
  | alternative0 p => p
  | alternative1 p => p
  end.

(** The class named by each alternative of the variant. *)
Definition alternative_class (v : variant) : target_class :=
  match v with
  | alternative0 _ => TestTarget
  | alternative1 _ => ProductionTarget
  end.

(** [decltype(target)] inside a generic lambda [(auto&& target)] visiting
    the const variant: [const C* const&]. *)
Definition decltype_target (c : target_class) : cpp_type :=
  LvalueRef (Const (Pointer (Const (Class c)))).

(** A generic lambda [[&captures](auto&& target) { ... }]: one
    instantiation per class of the alternative, acting on what it
    captured by reference. *)
Definition Visitor (E : Type) : Type := target_class -> pointer -> E -> E.

(** Modelled from the spec: [AZStd::visit] of
    [AzCore/std/containers/variant.h] is not among the sources; it applies
    the caller-supplied operation to the actively held alternative, the
    instantiation being the one for that alternative's type. *)
Definition AZStd_visit {E : Type} (visitor : Visitor E) (v : variant) (captures : E) : E :=
  match v with
  | alternative0 testTarget => visitor TestTarget testTarget captures
  | alternative1 productionTarget => visitor ProductionTarget productionTarget captures
  end.

(** ** The class (lines 26-66) *)

Record BuildTarget : Type := mkBuildTarget
  { m_target : variant;
    m_type : BuildTargetType.t }.

(** A member function: a computation over the object it is called on. *)
Abbreviation method := (state BuildTarget).

(** The value a member function returns when called on [this]. *)
Definition call {A : Type} (f : method A) (this : BuildTarget) : A :=
  evalState f this.

(** The object after the call. *)
Definition after {A : Type} (f : method A) (this : BuildTarget) : BuildTarget :=
  execState f this.

Section BuildTarget.

Variable L : ClassLayout.

(** [IsProductionTarget<Target>] (lines 54-56). *)
Definition IsProductionTarget (T : cpp_type) : bool :=
  is_same_v (Class ProductionTarget) (remove_const_t (remove_pointer_t (decay_t T))).

(** [IsTestTarget<Target>] (lines 59-61). *)
Definition IsTestTarget (T : cpp_type) : bool :=
  is_same_v (Class TestTarget) (remove_const_t (remove_pointer_t (decay_t T))).

(** Constructor for test targets (lines 68-73). *)
Definition BuildTarget_test (testTarget : pointer) : BuildTarget :=
  {| m_target := alternative0 testTarget;
     m_type := BuildTargetType.TestTarget |}.

(** Constructor for production targets (lines 75-80). *)
Definition BuildTarget_production (productionTarget : pointer) : BuildTarget :=
  {| m_target := alternative1 productionTarget;
     m_type := BuildTargetType.ProductionTarget |}.

(** Overload resolution on the static type of the argument. *)
Definition construct (c : target_class) (p : pointer) : BuildTarget :=
  match c with
  | TestTarget => BuildTarget_test p
  | ProductionTarget => BuildTarget_production p
  end.

(** [Visit] (lines 133-138). *)
Definition Visit {E : Type} (visitor : Visitor E) (captures : E) : method E :=
  target <- gets m_target ;;
  ret (AZStd_visit visitor target captures).

(** The address of the dereferenced [target], assigned to a
    [const Target*]: the pointer converted from
    [const C*] to the base class; a null pointer converts to null, any
    other is moved to the base subobject (address arithmetic is modulo
    the address space). *)
Definition address_of_deref (c : target_class) (target : pointer) : pointer :=
  if target =? nullptr then nullptr
  else Target_subobject L c target mod address_space.

(** [GetTarget] (lines 82-93). *)
Definition GetTarget : method pointer :=
  let returnTarget := nullptr in
  returnTarget <- Visit (fun c target _ => address_of_deref c target) returnTarget ;;
  ret returnTarget.

(** [GetTestTarget] (lines 95-109). *)
Definition GetTestTarget : method pointer :=
  let testTarget := nullptr in
  testTarget <- Visit (fun c target testTarget =>
                         if IsTestTarget (decltype_target c) then target
                         else testTarget) testTarget ;;
  ret testTarget.

(** [GetProductionTarget] (lines 111-125). *)
Definition GetProductionTarget : method pointer :=
  let productionTarget := nullptr in
  productionTarget <- Visit (fun c target productionTarget =>
                               if IsProductionTarget (decltype_target c) then target
                               else productionTarget) productionTarget ;;
  ret productionTarget.

(** [GetTargetType] (lines 127-131). *)
Definition GetTargetType : method BuildTargetType.t :=
  gets m_type.

(** [operator==] (lines 140-145). *)
Definition operator_eq (lhs rhs : BuildTarget) : bool :=
  call GetTarget lhs =? call GetTarget rhs.

(** [AZStd::hash<BuildTarget>::operator()] (lines 154-162). *)
Definition hash (buildTarget : BuildTarget) : Z :=
  reinterpret_cast_size_t (call GetTarget buildTarget).

End BuildTarget.

(** The wrappers a program can hold: the class has no default constructor
    and its members are private, so every instance comes from one of the
    two constructors. *)
Inductive constructed : BuildTarget -> Prop :=
| constructed_test (testTarget : pointer) :
    constructed (BuildTarget_test testTarget)
| constructed_production (productionTarget : pointer) :
    constructed (BuildTarget_production productionTarget).

(** The tag each constructor stores. *)
Definition tag_of_class (c : target_class) : BuildTargetType.t :=
  match c with
  | TestTarget => BuildTargetType.TestTarget
  | ProductionTarget => BuildTargetType.ProductionTarget
  end.

(** The tag names the active alternative of the variant. *)
Definition tag_matches (this : BuildTarget) : bool :=
  match m_type this, m_target this with
  | BuildTargetType.TestTarget, alternative0 _ => true
  | BuildTargetType.ProductionTarget, alternative1 _ => true
  | _, _ => false
  end.

(** Exactly one of the two narrowing accessors returns a non-null pointer. *)
Definition exactly_one_present (this : BuildTarget) : bool :=
  xorb (negb (call GetTestTarget this =? nullptr))
       (negb (call GetProductionTarget this =? nullptr)).

(** A member function is read-only when the object is the same after the
    call, whatever it was. *)
Definition read_only {A : Type} (f : method A) : Prop :=
  forall this, after f this = this.

(** ** The visitor of the dispatch scenario *)

Record counters : Type := mkCounters
  { test_branch : nat;
    production_branch : nat }.

(** Counts a call in the test branch when instantiated with the test
    target type, in the production branch otherwise. *)
Definition counting_visitor : Visitor counters :=
  fun c _ k =>
    if IsTestTarget (decltype_target c)
    then {| test_branch := S (test_branch k); production_branch := production_branch k |}
    else {| test_branch := test_branch k; production_branch := S (production_branch k) |}.

(** Two concrete layouts: single inheritance with [Target] first, as in the
    repository, and one where another base precedes it. *)
Definition single_inheritance_layout : ClassLayout :=
  {| sizeof := fun c => match c with TestTarget => 96 | ProductionTarget => 64 end;
     Target_offset := fun _ => 0 |}.

Definition second_base_layout : ClassLayout :=
  {| sizeof := fun c => match c with TestTarget => 96 | ProductionTarget => 64 end;
     Target_offset := fun c => match c with TestTarget => 16 | ProductionTarget => 8 end |}.

(** The spellings of a pointer to [c] that a generic lambda
    [(auto&& target)] can be instantiated with: a reference (lvalue or
    rvalue) to a pointer (const or not) to [c] (const or not). *)
Definition pointer_spelling (rvalue top_const pointee_const : bool) (c : target_class) : cpp_type :=
  let pointee := if pointee_const then Const (Class c) else Class c in
  let ptr := if top_const then Const (Pointer pointee) else Pointer pointee in
  if rvalue then RvalueRef ptr else LvalueRef ptr.

(** * Properties *)

(** ** Running the accessors *)

Example GetTestTarget_run :
  call GetTestTarget (BuildTarget_test 4096) = 4096.
Proof. reflexivity. Qed.

Example GetTarget_run :
  call (GetTarget second_base_layout) (BuildTarget_production 4096) = 4104.
Proof. reflexivity. Qed.

Example IsTestTarget_run :
  IsTestTarget (decltype_target TestTarget) = true /\
  IsTestTarget (decltype_target ProductionTarget) = false /\
  IsProductionTarget (decltype_target ProductionTarget) = true /\
  IsProductionTarget (decltype_target TestTarget) = false.
Proof. repeat split. Qed.

(** ** Const member functions *)

Create HintDb const_method.

Lemma read_only_ret {A : Type} (a : A) : read_only (ret a : method A).
Proof. intros this. reflexivity. Qed.

Lemma read_only_gets {A : Type} (field : BuildTarget -> A) :
  read_only (gets field : method A).
Proof. intros this. reflexivity. Qed.

Lemma read_only_bind {A B : Type} (f : method A) (k : A -> method B) :
  read_only f -> (forall a, read_only (k a)) -> read_only (bind f k).
Proof.
  intros Hf Hk this.
  specialize (Hf this). unfold after, execState in *. simpl.
  destruct (runState f this) as [a this'] eqn:Hrun. simpl in Hf. subst this'.
  apply Hk.
Qed.

#[local] Hint Resolve read_only_ret read_only_gets read_only_bind : const_method.

Lemma Visit_read_only {E : Type} (visitor : Visitor E) (captures : E) :
  read_only (Visit visitor captures).
Proof. unfold Visit. auto with const_method. Qed.

#[local] Hint Resolve Visit_read_only : const_method.

Lemma GetTarget_read_only (L : ClassLayout) : read_only (GetTarget L).
Proof. unfold GetTarget. auto with const_method. Qed.

Lemma GetTestTarget_read_only : read_only GetTestTarget.
Proof. unfold GetTestTarget. auto with const_method. Qed.

Lemma GetProductionTarget_read_only : read_only GetProductionTarget.
Proof. unfold GetProductionTarget. auto with const_method. Qed.

Lemma GetTargetType_read_only : read_only GetTargetType.
Proof. unfold GetTargetType. auto with const_method. Qed.

(** ** What each accessor computes *)

Lemma call_Visit {E : Type} (visitor : Visitor E) (captures : E) (this : BuildTarget) :
  call (Visit visitor captures) this = AZStd_visit visitor (m_target this) captures.
Proof. reflexivity. Qed.

Lemma call_GetTarget (L : ClassLayout) (this : BuildTarget) :
  call (GetTarget L) this =
  address_of_deref L (alternative_class (m_target this)) (held_pointer (m_target this)).
Proof. destruct this as [[p | p] tag]; reflexivity. Qed.

Lemma call_GetTestTarget (this : BuildTarget) :
  call GetTestTarget this =
  match m_target this with
  | alternative0 testTarget => testTarget
  | alternative1 _ => nullptr
  end.
Proof. destruct this as [[p | p] tag]; reflexivity. Qed.

Lemma call_GetProductionTarget (this : BuildTarget) :
  call GetProductionTarget this =
  match m_target this with
  | alternative0 _ => nullptr
  | alternative1 productionTarget => productionTarget
  end.
Proof. destruct this as [[p | p] tag]; reflexivity. Qed.

(** ** Addresses *)

Lemma address_space_pos : 0 < address_space.
Proof. reflexivity. Qed.

Lemma layout_ok_spec (L : ClassLayout) :
  layout_ok L = true -> forall c, 0 <= Target_offset L c < sizeof L c.
Proof.
  unfold layout_ok. simpl. rewrite !andb_true_iff.
  intros [[H1 H2] [[H3 H4] _]] c.
  apply Z.leb_le in H1, H3. apply Z.ltb_lt in H2, H4.
  destruct c; lia.
Qed.

Lemma live_spec (L : ClassLayout) (c : target_class) (p : pointer) :
  live L c p = true <-> 0 < p /\ p + sizeof L c <= address_space.
Proof.
  unfold live. rewrite andb_true_iff, Z.ltb_lt, Z.leb_le. reflexivity.
Qed.

(** The conversion to the base class of a pointer to a live object is the
    address of its [Target] subobject, which is not null. *)
Lemma address_of_deref_live (L : ClassLayout) (c : target_class) (p : pointer) :
  layout_ok L = true -> live L c p = true ->
  address_of_deref L c p = Target_subobject L c p /\
  0 < Target_subobject L c p < address_space.
Proof.
  intros Hok Hlive.
  pose proof (layout_ok_spec L Hok c) as Hoff.
  apply live_spec in Hlive. destruct Hlive as [Hpos Hend].
  unfold address_of_deref, Target_subobject, nullptr.
  destruct (Z.eqb_spec p 0) as [-> | _]; [lia |].
  rewrite Z.mod_small by lia. lia.
Qed.

(** The converted pointer is always an address. *)
Lemma address_of_deref_range (L : ClassLayout) (c : target_class) (p : pointer) :
  0 <= address_of_deref L c p < address_space.
Proof.
  unfold address_of_deref, nullptr.
  destruct (p =? 0).
  - split; [lia | apply address_space_pos].
  - apply Z.mod_pos_bound, address_space_pos.
Qed.

Lemma call_GetTarget_range (L : ClassLayout) (this : BuildTarget) :
  0 <= call (GetTarget L) this < address_space.
Proof. rewrite call_GetTarget. apply address_of_deref_range. Qed.

Lemma address_of_deref_null (L : ClassLayout) (c : target_class) :
  address_of_deref L c nullptr = nullptr.
Proof. reflexivity. Qed.

(** Pointers to two objects of one class convert to the same base pointer
    only when they are the same pointer. *)
Lemma address_of_deref_inj (L : ClassLayout) (c : target_class) (p q : pointer) :
  layout_ok L = true -> live L c p = true -> live L c q = true ->
  address_of_deref L c p = address_of_deref L c q -> p = q.
Proof.
  intros Hok Hp Hq Heq.
  destruct (address_of_deref_live L c p Hok Hp) as [Ep _].
  destruct (address_of_deref_live L c q Hok Hq) as [Eq _].
  rewrite Ep, Eq in Heq. unfold Target_subobject in Heq. lia.
Qed.

(** Two distinct live objects, of the same class or not, have distinct
    [Target] subobjects. *)
Lemma distinct_instances_distinct_views (L : ClassLayout)
    (c d : target_class) (p q : pointer) :
  layout_ok L = true -> live L c p = true -> live L d q = true ->
  disjoint_storage L c p d q = true ->
  address_of_deref L c p <> address_of_deref L d q.
Proof.
  intros Hok Hp Hq Hdis.
  destruct (address_of_deref_live L c p Hok Hp) as [Ep _].
  destruct (address_of_deref_live L d q Hok Hq) as [Eq _].
  rewrite Ep, Eq. unfold Target_subobject.
  pose proof (layout_ok_spec L Hok c). pose proof (layout_ok_spec L Hok d).
  unfold disjoint_storage in Hdis. apply orb_true_iff in Hdis.
  rewrite !Z.leb_le in Hdis. lia.
Qed.

Lemma operator_eq_spec (L : ClassLayout) (lhs rhs : BuildTarget) :
  operator_eq L lhs rhs = true <-> call (GetTarget L) lhs = call (GetTarget L) rhs.
Proof. unfold operator_eq. apply Z.eqb_eq. Qed.

Lemma hash_is_address (L : ClassLayout) (this : BuildTarget) :
  hash L this = call (GetTarget L) this.
Proof.
  unfold hash, reinterpret_cast_size_t.
  apply Z.mod_small, call_GetTarget_range.
Qed.

Lemma exactly_one_present_construct (c : target_class) (p : pointer) :
  exactly_one_present (construct c p) = negb (p =? nullptr).
Proof.
  unfold exactly_one_present.
  rewrite call_GetTestTarget, call_GetProductionTarget.
  destruct c; simpl; destruct (p =? nullptr); reflexivity.
Qed.

(** ** Equality and hash *)

(** C1: [a == b] holds exactly when [GetTarget()] of both is the same
    pointer; the contents of memory play no part, so two wrappers built from
    two distinct live instances of a class are unequal even when the
    instances hold the same bytes. *)
Theorem operator_eq_is_identity (L : ClassLayout) (a b : BuildTarget) :
  (operator_eq L a b = true <-> call (GetTarget L) a = call (GetTarget L) b) /\
  (forall (mem : memory) (c : target_class) (p q : pointer),
      layout_ok L = true ->
      a = construct c p -> b = construct c q ->
      live L c p = true -> live L c q = true -> p <> q ->
      value_identical mem (sizeof L c) p q = true ->
      operator_eq L a b = false).
Proof.
  split; [apply operator_eq_spec |].
  intros mem c p q Hok -> -> Hp Hq Hpq _.
  apply not_true_is_false. rewrite operator_eq_spec, !call_GetTarget.
  intros Heq. apply Hpq.
  destruct c; simpl in Heq; eapply address_of_deref_inj; eauto.
Qed.

Lemma operator_eq_is_identity_witness :
  operator_eq second_base_layout (BuildTarget_test 4096) (BuildTarget_test 8192) = false.
Proof.
  apply (proj2 (operator_eq_is_identity second_base_layout
                  (BuildTarget_test 4096) (BuildTarget_test 8192))
               (fun _ => 7) TestTarget 4096 8192);
    first [reflexivity | discriminate].
Defined.

(** C2: equal wrappers hash equal; the hash is the [GetTarget()] pointer
    reinterpreted as an integer, the pointer that equality compares. *)
Theorem hash_respects_operator_eq (L : ClassLayout) (a b : BuildTarget) :
  hash L a = reinterpret_cast_size_t (call (GetTarget L) a) /\
  (operator_eq L a b = true -> hash L a = hash L b).
Proof.
  split; [reflexivity |].
  intros Heq. apply operator_eq_spec in Heq.
  unfold hash. rewrite Heq. reflexivity.
Qed.

Lemma hash_respects_operator_eq_witness :
  hash single_inheritance_layout (BuildTarget_test 4096) =
  hash single_inheritance_layout (BuildTarget_production 4096).
Proof.
  apply (proj2 (hash_respects_operator_eq single_inheritance_layout
                  (BuildTarget_test 4096) (BuildTarget_production 4096))).
  reflexivity.
Defined.

(** C10: the hash is the [GetTarget()] address itself, so two wrappers hash
    equal exactly when they are equal, and unequal wrappers hash to distinct
    values. *)
Theorem hash_eq_iff_operator_eq (L : ClassLayout) (a b : BuildTarget) :
  hash L a = call (GetTarget L) a /\
  (hash L a = hash L b <-> operator_eq L a b = true) /\
  (operator_eq L a b = false -> hash L a <> hash L b).
Proof.
  split; [apply hash_is_address |].
  assert (Hiff : hash L a = hash L b <-> operator_eq L a b = true).
  { rewrite !hash_is_address. symmetry. apply operator_eq_spec. }
  split; [exact Hiff |].
  intros Hne Hh. apply Hiff in Hh. congruence.
Qed.

Lemma hash_eq_iff_operator_eq_witness :
  hash second_base_layout (BuildTarget_test 4096) <>
  hash second_base_layout (BuildTarget_production 4096).
Proof.
  apply (proj2 (proj2 (hash_eq_iff_operator_eq second_base_layout
                  (BuildTarget_test 4096) (BuildTarget_production 4096)))).
  reflexivity.
Defined.

(** ** Construction and the accessors *)

(** C3: for a live test target [t], the wrapper built from [t] reports the
    [TestTarget] tag, narrows to [t] as a test target and to null as a
    production target, and [GetTarget()] is the non-null address of the
    [Target] subobject of [t]. *)
Theorem BuildTarget_test_accessors (L : ClassLayout) (t : pointer) :
  layout_ok L = true -> live L TestTarget t = true ->
  call GetTargetType (BuildTarget_test t) = BuildTargetType.TestTarget /\
  call GetTestTarget (BuildTarget_test t) = t /\
  call GetProductionTarget (BuildTarget_test t) = nullptr /\
  call (GetTarget L) (BuildTarget_test t) = Target_subobject L TestTarget t /\
  call (GetTarget L) (BuildTarget_test t) <> nullptr.
Proof.
  intros Hok Hlive.
  destruct (address_of_deref_live L TestTarget t Hok Hlive) as [Hview Hrange].
  rewrite call_GetTarget. simpl. rewrite Hview.
  repeat split. unfold nullptr. lia.
Qed.

Lemma BuildTarget_test_accessors_witness :
  call GetTargetType (BuildTarget_test 4096) = BuildTargetType.TestTarget /\
  call GetTestTarget (BuildTarget_test 4096) = 4096 /\
  call GetProductionTarget (BuildTarget_test 4096) = nullptr /\
  call (GetTarget second_base_layout) (BuildTarget_test 4096) = 4112 /\
  call (GetTarget second_base_layout) (BuildTarget_test 4096) <> nullptr.
Proof.
  apply (BuildTarget_test_accessors second_base_layout 4096); reflexivity.
Defined.

(** C4: for a live production target [p], the wrapper built from [p]
    reports the [ProductionTarget] tag, narrows to [p] as a production
    target and to null as a test target, and [GetTarget()] is the non-null
    address of the [Target] subobject of [p]. *)
Theorem BuildTarget_production_accessors (L : ClassLayout) (p : pointer) :
  layout_ok L = true -> live L ProductionTarget p = true ->
  call GetTargetType (BuildTarget_production p) = BuildTargetType.ProductionTarget /\
  call GetProductionTarget (BuildTarget_production p) = p /\
  call GetTestTarget (BuildTarget_production p) = nullptr /\
  call (GetTarget L) (BuildTarget_production p) = Target_subobject L ProductionTarget p /\
  call (GetTarget L) (BuildTarget_production p) <> nullptr.
Proof.
  intros Hok Hlive.
  destruct (address_of_deref_live L ProductionTarget p Hok Hlive) as [Hview Hrange].
  rewrite call_GetTarget. simpl. rewrite Hview.
  repeat split. unfold nullptr. lia.
Qed.

Lemma BuildTarget_production_accessors_witness :
  call GetTargetType (BuildTarget_production 8192) = BuildTargetType.ProductionTarget /\
  call GetProductionTarget (BuildTarget_production 8192) = 8192 /\
  call GetTestTarget (BuildTarget_production 8192) = nullptr /\
  call (GetTarget second_base_layout) (BuildTarget_production 8192) = 8200 /\
  call (GetTarget second_base_layout) (BuildTarget_production 8192) <> nullptr.
Proof.
  apply (BuildTarget_production_accessors second_base_layout 8192); reflexivity.
Defined.

(** The wrapper built from a null test-target pointer is an instance for
    which neither narrowing accessor returns a value. *)
Lemma exactly_one_present_fails_on_null :
  constructed (BuildTarget_test nullptr) /\
  call GetTestTarget (BuildTarget_test nullptr) = nullptr /\
  call GetProductionTarget (BuildTarget_test nullptr) = nullptr /\
  exactly_one_present (BuildTarget_test nullptr) = false.
Proof. repeat split. constructor. Qed.

(** C5 (amended): for every wrapper built from a non-null pointer, exactly
    one of [GetTestTarget()] and [GetProductionTarget()] returns a non-null
    pointer (the one of the constructor used) and the other returns null. *)
Theorem exactly_one_present_nonnull (c : target_class) (p : pointer) :
  p <> nullptr ->
  exactly_one_present (construct c p) = true /\
  match c with
  | TestTarget =>
      call GetTestTarget (construct c p) = p /\
      call GetProductionTarget (construct c p) = nullptr
  | ProductionTarget =>
      call GetProductionTarget (construct c p) = p /\
      call GetTestTarget (construct c p) = nullptr
  end.
Proof.
  intros Hp. rewrite exactly_one_present_construct.
  apply Z.eqb_neq in Hp. rewrite Hp.
  destruct c; repeat split.
Qed.

Lemma exactly_one_present_nonnull_witness :
  exactly_one_present (construct ProductionTarget 8192) = true /\
  call GetProductionTarget (construct ProductionTarget 8192) = 8192 /\
  call GetTestTarget (construct ProductionTarget 8192) = nullptr.
Proof.
  apply (exactly_one_present_nonnull ProductionTarget 8192). discriminate.
Defined.

(** C6: for a wrapper built from a live target of either class,
    [GetTarget()] returns the address of the [Target] subobject of the
    target held, that address is not null, and the wrapper is the same
    after the call. *)
Theorem GetTarget_of_live (L : ClassLayout) (c : target_class) (p : pointer) :
  layout_ok L = true -> live L c p = true ->
  call (GetTarget L) (construct c p) = Target_subobject L c (held_pointer (m_target (construct c p))) /\
  call (GetTarget L) (construct c p) <> nullptr /\
  after (GetTarget L) (construct c p) = construct c p.
Proof.
  intros Hok Hlive.
  destruct (address_of_deref_live L c p Hok Hlive) as [Hview Hrange].
  rewrite call_GetTarget.
  assert (Hc : alternative_class (m_target (construct c p)) = c) by (destruct c; reflexivity).
  assert (Hh : held_pointer (m_target (construct c p)) = p) by (destruct c; reflexivity).
  rewrite Hc, Hh, Hview.
  split; [reflexivity |].
  split; [unfold nullptr; lia | apply GetTarget_read_only].
Qed.

Lemma GetTarget_of_live_witness :
  call (GetTarget single_inheritance_layout) (construct TestTarget 4096) = 4096 /\
  call (GetTarget single_inheritance_layout) (construct TestTarget 4096) <> nullptr /\
  after (GetTarget single_inheritance_layout) (construct TestTarget 4096) = construct TestTarget 4096.
Proof.
  apply (GetTarget_of_live single_inheritance_layout TestTarget 4096); reflexivity.
Defined.

(** ** Visitor dispatch *)

(** C7: [Visit] on a wrapper holding a test target runs the visitor's
    test-target instantiation once on the held pointer, and on a wrapper
    holding a production target the production-target instantiation; with
    the counting visitor exactly the matching counter goes up by one.  The
    outcome depends on the variant alone, not on the tag. *)
Theorem Visit_dispatch {E : Type} (visitor : Visitor E) (captures : E)
    (k : counters) (t p : pointer) :
  call (Visit visitor captures) (BuildTarget_test t) = visitor TestTarget t captures /\
  call (Visit visitor captures) (BuildTarget_production p) =
    visitor ProductionTarget p captures /\
  call (Visit counting_visitor k) (BuildTarget_test t) =
    {| test_branch := S (test_branch k); production_branch := production_branch k |} /\
  call (Visit counting_visitor k) (BuildTarget_production p) =
    {| test_branch := test_branch k; production_branch := S (production_branch k) |} /\
  (forall (v : variant) (tag tag' : BuildTargetType.t),
      call (Visit visitor captures) {| m_target := v; m_type := tag |} =
      call (Visit visitor captures) {| m_target := v; m_type := tag' |}).
Proof. repeat split. Qed.

(** ** Invariant of the instances *)

(** C8: in every instance the tag names the active alternative of the
    variant, which is one of the two (there is no empty alternative), and
    the instance is the same after [GetTarget], [GetTestTarget],
    [GetProductionTarget], [GetTargetType] and [Visit] with any visitor. *)
Theorem BuildTarget_invariant (L : ClassLayout) (this : BuildTarget) :
  constructed this ->
  tag_matches this = true /\
  (call GetTargetType this = BuildTargetType.TestTarget <-> index (m_target this) = 0) /\
  (call GetTargetType this = BuildTargetType.ProductionTarget <-> index (m_target this) = 1) /\
  (index (m_target this) = 0 \/ index (m_target this) = 1) /\
  after (GetTarget L) this = this /\
  after GetTestTarget this = this /\
  after GetProductionTarget this = this /\
  after GetTargetType this = this /\
  (forall (E : Type) (visitor : Visitor E) (captures : E),
      after (Visit visitor captures) this = this).
Proof.
  intros Hthis.
  split; [destruct Hthis; reflexivity |].
  split; [destruct Hthis; simpl; split; (reflexivity || discriminate) |].
  split; [destruct Hthis; simpl; split; (reflexivity || discriminate) |].
  split; [destruct Hthis; simpl; auto |].
  split; [apply GetTarget_read_only |].
  split; [apply GetTestTarget_read_only |].
  split; [apply GetProductionTarget_read_only |].
  split; [apply GetTargetType_read_only |].
  intros E visitor captures. apply Visit_read_only.
Qed.

Lemma BuildTarget_invariant_witness :
  tag_matches (BuildTarget_production 8192) = true /\
  after (GetTarget second_base_layout) (BuildTarget_production 8192) =
    BuildTarget_production 8192.
Proof.
  pose proof (BuildTarget_invariant second_base_layout (BuildTarget_production 8192)
                (constructed_production 8192)) as H.
  split; [apply H | apply H].
Defined.

(** ** Construction from a null pointer *)

(** C9: both constructors accept a null pointer; the wrapper so built
    returns null from [GetTestTarget], [GetProductionTarget] and
    [GetTarget] while [GetTargetType] reports the constructor used, so
    neither narrowing accessor is present; whenever exactly one accessor is
    present, or [GetTarget] is not null, the constructor argument was not
    null. *)
Theorem null_construction (L : ClassLayout) (c : target_class) :
  constructed (construct c nullptr) /\
  call GetTestTarget (construct c nullptr) = nullptr /\
  call GetProductionTarget (construct c nullptr) = nullptr /\
  call (GetTarget L) (construct c nullptr) = nullptr /\
  call GetTargetType (construct c nullptr) = tag_of_class c /\
  exactly_one_present (construct c nullptr) = false /\
  (forall p : pointer, exactly_one_present (construct c p) = true <-> p <> nullptr) /\
  (forall p : pointer, call (GetTarget L) (construct c p) <> nullptr -> p <> nullptr).
Proof.
  split; [destruct c; constructor |].
  do 5 (split; [destruct c; reflexivity |]).
  split.
  - intros p. rewrite exactly_one_present_construct, negb_true_iff.
    apply Z.eqb_neq.
  - intros p Hview ->. apply Hview. destruct c; reflexivity.
Qed.

Lemma null_construction_witness :
  exactly_one_present (construct TestTarget 4096) = true /\ 4096 <> nullptr.
Proof.
  destruct (null_construction second_base_layout TestTarget)
    as (_ & _ & _ & _ & _ & _ & Hone & Hview).
  split.
  - apply Hone. discriminate.
  - apply Hview. discriminate.
Defined.

(** * Further properties of the header *)

(** ** The compile-time checks (lines 54-61) *)

Lemma is_same_v_Class (c : target_class) (T : cpp_type) :
  is_same_v (Class c) T = true -> T = Class c.
Proof.
  destruct T as [d | | | |]; simpl; try discriminate.
  destruct c, d; simpl; congruence.
Qed.

(** X1: no type satisfies both [IsTestTarget] and [IsProductionTarget];
    for every reference to a pointer to a class, whatever the kind of
    reference and the const qualifiers, each check holds exactly when the
    class is the one it names; a pointer to a pointer satisfies neither. *)
Theorem IsTarget_checks (T : cpp_type) (c : target_class)
    (rvalue top_const pointee_const : bool) :
  IsTestTarget T && IsProductionTarget T = false /\
  IsTestTarget (pointer_spelling rvalue top_const pointee_const c) =
    target_class_eqb TestTarget c /\
  IsProductionTarget (pointer_spelling rvalue top_const pointee_const c) =
    target_class_eqb ProductionTarget c /\
  IsTestTarget (Pointer (Pointer T)) = false /\
  IsProductionTarget (Pointer (Pointer T)) = false.
Proof.
  split.
  - unfold IsTestTarget, IsProductionTarget.
    destruct (is_same_v (Class TestTarget) _) eqn:Htest; [| reflexivity].
    apply is_same_v_Class in Htest. rewrite Htest. reflexivity.
  - repeat split; destruct rvalue, top_const, pointee_const, c; reflexivity.
Qed.

(** ** The narrowing accessors (lines 95-125) *)

(** X2: for every wrapper, built from a null pointer or not, at least one
    of [GetTestTarget()] and [GetProductionTarget()] returns null; one that
    does not return null returns the pointer held by the variant, whose
    active alternative is then the one of that accessor. *)
Theorem narrowing_never_both (this : BuildTarget) :
  (call GetTestTarget this = nullptr \/ call GetProductionTarget this = nullptr) /\
  (call GetTestTarget this <> nullptr ->
   m_target this = alternative0 (call GetTestTarget this)) /\
  (call GetProductionTarget this <> nullptr ->
   m_target this = alternative1 (call GetProductionTarget this)).
Proof.
  rewrite call_GetTestTarget, call_GetProductionTarget.
  destruct (m_target this) as [t | p]; repeat split; auto;
    intros H; exfalso; apply H; reflexivity.
Qed.

Lemma narrowing_never_both_witness :
  m_target (BuildTarget_test 4096) = alternative0 (call GetTestTarget (BuildTarget_test 4096)).
Proof.
  apply (proj1 (proj2 (narrowing_never_both (BuildTarget_test 4096)))).
  discriminate.
Defined.

(** X3: in every instance the accessor of the kind the tag does not name
    returns null, and the accessor of the kind it names returns the held
    pointer (null when the instance was built from null). *)
Theorem tag_selects_accessor (this : BuildTarget) :
  constructed this ->
  match call GetTargetType this with
  | BuildTargetType.TestTarget =>
      call GetProductionTarget this = nullptr /\
      call GetTestTarget this = held_pointer (m_target this)
  | BuildTargetType.ProductionTarget =>
      call GetTestTarget this = nullptr /\
      call GetProductionTarget this = held_pointer (m_target this)
  end.
Proof. intros [t | p]; split; reflexivity. Qed.

Lemma tag_selects_accessor_witness :
  call GetTestTarget (BuildTarget_production 8192) = nullptr /\
  call GetProductionTarget (BuildTarget_production 8192) = 8192.
Proof.
  apply (tag_selects_accessor (BuildTarget_production 8192)). constructor.
Defined.

(** X4: [GetTarget()] is the conversion to [const Target*] of whichever
    narrowing accessor returns a pointer, and it is null when neither
    does. *)
Theorem GetTarget_from_narrowing (L : ClassLayout) (this : BuildTarget) :
  (call GetTestTarget this = nullptr -> call GetProductionTarget this = nullptr ->
   call (GetTarget L) this = nullptr) /\
  (call GetTestTarget this <> nullptr ->
   call (GetTarget L) this = address_of_deref L TestTarget (call GetTestTarget this)) /\
  (call GetProductionTarget this <> nullptr ->
   call (GetTarget L) this =
   address_of_deref L ProductionTarget (call GetProductionTarget this)).
Proof.
  rewrite call_GetTarget, call_GetTestTarget, call_GetProductionTarget.
  destruct (m_target this) as [t | p]; simpl; repeat split;
    try (intros H; exfalso; apply H; reflexivity);
    try reflexivity.
  - intros -> _. reflexivity.
  - intros _ ->. reflexivity.
Qed.

Lemma GetTarget_from_narrowing_witness :
  call (GetTarget second_base_layout) (BuildTarget_production 8192) =
  address_of_deref second_base_layout ProductionTarget 8192.
Proof.
  apply (proj2 (proj2 (GetTarget_from_narrowing second_base_layout
                         (BuildTarget_production 8192)))).
  discriminate.
Defined.

(** ** Equality and hash as a container key (lines 140-162) *)

(** X5: [operator==] is an equivalence relation on wrappers: reflexive,
    symmetric and transitive. *)
Theorem operator_eq_equivalence (L : ClassLayout) (a b c : BuildTarget) :
  operator_eq L a a = true /\
  operator_eq L a b = operator_eq L b a /\
  (operator_eq L a b = true -> operator_eq L b c = true -> operator_eq L a c = true).
Proof.
  split; [apply operator_eq_spec; reflexivity |].
  split; [unfold operator_eq; apply Z.eqb_sym |].
  rewrite !operator_eq_spec. congruence.
Qed.

Lemma operator_eq_equivalence_witness :
  operator_eq single_inheritance_layout (BuildTarget_test 4096) (BuildTarget_test 4096) = true.
Proof.
  apply (proj2 (proj2 (operator_eq_equivalence single_inheritance_layout
                         (BuildTarget_test 4096) (BuildTarget_production 4096)
                         (BuildTarget_test 4096)))); reflexivity.
Defined.

(** X6: two wrappers built from two live objects in disjoint storage, of
    the same class or one of each, are unequal and have different hashes. *)
Theorem distinct_instances_unequal (L : ClassLayout)
    (c d : target_class) (p q : pointer) :
  layout_ok L = true -> live L c p = true -> live L d q = true ->
  disjoint_storage L c p d q = true ->
  operator_eq L (construct c p) (construct d q) = false /\
  hash L (construct c p) <> hash L (construct d q).
Proof.
  intros Hok Hp Hq Hdis.
  pose proof (distinct_instances_distinct_views L c d p q Hok Hp Hq Hdis) as Hne.
  assert (Hviews : call (GetTarget L) (construct c p) <> call (GetTarget L) (construct d q)).
  { rewrite !call_GetTarget. destruct c, d; exact Hne. }
  split.
  - apply not_true_is_false. rewrite operator_eq_spec. exact Hviews.
  - rewrite !hash_is_address. exact Hviews.
Qed.

Lemma distinct_instances_unequal_witness :
  operator_eq second_base_layout (construct TestTarget 4096) (construct ProductionTarget 4192) = false /\
  hash second_base_layout (construct TestTarget 4096) <>
  hash second_base_layout (construct ProductionTarget 4192).
Proof.
  apply (distinct_instances_unequal second_base_layout TestTarget ProductionTarget 4096 4192);
    reflexivity.
Defined.

(** X7: all wrappers built from a null pointer are equal to one another
    and hash to 0, whichever constructor built them; a wrapper built from
    a null test target and one built from a null production target are
    equal although their tags differ. *)
Theorem null_wrappers_equal (L : ClassLayout) (c d : target_class) :
  operator_eq L (construct c nullptr) (construct d nullptr) = true /\
  hash L (construct c nullptr) = 0 /\
  (c <> d ->
   call GetTargetType (construct c nullptr) <> call GetTargetType (construct d nullptr)).
Proof.
  split; [destruct c, d; reflexivity |].
  split; [destruct c; reflexivity |].
  intros Hcd. destruct c, d;
    first [exfalso; apply Hcd; reflexivity | intros Htag; discriminate Htag].
Qed.

Lemma null_wrappers_equal_witness :
  call GetTargetType (construct TestTarget nullptr) <>
  call GetTargetType (construct ProductionTarget nullptr).
Proof.
  apply (proj2 (proj2 (null_wrappers_equal single_inheritance_layout
                         TestTarget ProductionTarget))).
  discriminate.
Defined.

(** X8: the hash of every wrapper fits [size_t] and is 0 exactly when
    [GetTarget()] is null; the hash of a wrapper built from a live object
    is the address of that object's [Target] subobject, which is not 0. *)
Theorem hash_range (L : ClassLayout) (this : BuildTarget) :
  0 <= hash L this < address_space /\
  (hash L this = 0 <-> call (GetTarget L) this = nullptr) /\
  (forall (c : target_class) (p : pointer),
      layout_ok L = true -> live L c p = true -> this = construct c p ->
      hash L this = Target_subobject L c p /\ hash L this <> 0).
Proof.
  split; [rewrite hash_is_address; apply call_GetTarget_range |].
  split; [rewrite hash_is_address; reflexivity |].
  intros c p Hok Hlive ->.
  destruct (address_of_deref_live L c p Hok Hlive) as [Hview Hrange].
  rewrite hash_is_address, call_GetTarget.
  replace (alternative_class (m_target (construct c p))) with c by (destruct c; reflexivity).
  replace (held_pointer (m_target (construct c p))) with p by (destruct c; reflexivity).
  rewrite Hview. split; [reflexivity | lia].
Qed.

Lemma hash_range_witness :
  hash second_base_layout (construct TestTarget 4096) = 4112 /\
  hash second_base_layout (construct TestTarget 4096) <> 0.
Proof.
  apply (proj2 (proj2 (hash_range second_base_layout (construct TestTarget 4096)))
               TestTarget 4096); reflexivity.
Defined.

(** ** Visit (lines 133-138) *)

(** X9: visiting with one visitor and then with a second one on what the
    first left is one visit with the two visitors composed, and the wrapper
    is unchanged after both. *)
Theorem Visit_fusion {E : Type} (first second : Visitor E) (captures : E)
    (this : BuildTarget) :
  call (captures' <- Visit first captures ;; Visit second captures') this =
  call (Visit (fun c target e => second c target (first c target e)) captures) this /\
  after (captures' <- Visit first captures ;; Visit second captures') this = this.
Proof.
  split.
  - destruct this as [[t | p] tag]; reflexivity.
  - apply read_only_bind; auto with const_method.
Qed.
